(** * Atmospheric_refraction.py: refraction correction and barometric formula

    A shallow embedding of the two numerical transformations of
    [Atmospheric_refraction.py] and the proofs of their specified properties.

    Number model.  The script computes with numpy float64 arrays; here every
    finite float is idealised as a real number of [Stdlib.Reals], so
    rounding and overflow are outside the model.  What the program does
    when an operation has no real result is kept:

    - a division of Python floats by zero raises [ZeroDivisionError]
      ([283.0 / (273.0 + T)] at [T = -273]); the call has no result;
    - a numpy operation without a real value ([x / 0], [tan] of an
      infinity, a power of a negative base to a non-integral exponent)
      yields [inf] or [nan] in that element; an array is a
      [list (option R)] and [None] is such an element.  Every later
      operation of the script keeps it non-real;
    - at a pole of the tangent (a real argument with zero cosine, which no
      float hits) the tangent is unbounded and the quotient [1.02 / tan]
      is its limit 0; near a pole the float program computes a tangent of
      the order of 1e16 and a quotient that rounds to this. *)

From Stdlib Require Import String Reals Lra Lia List.
Import ListNotations.
Local Open Scope R_scope.

(** ** Python float arithmetic *)

Inductive result (A : Type) : Type :=
| Ok (a : A)
| ZeroDivisionError.

Arguments Ok {A} a.
Arguments ZeroDivisionError {A}.

Module Python.

(** [x / y] on floats raises [ZeroDivisionError] when [y] is zero. *)
Definition div (x y : R) : result R :=
  if Req_dec_T y 0 then ZeroDivisionError else Ok (x / y).

End Python.

(** ** The numpy operations the script uses *)

Module Numpy.

(** [a.clip(min=lo, max=hi)] is [minimum(maximum(a, lo), hi)], per element. *)
Definition clip (lo hi x : R) : R := Rmin (Rmax x lo) hi.

(** [np.deg2rad(x)] is [x * (pi / 180)]. *)
Definition deg2rad (x : R) : R := x * (PI / 180).

(** [np.linspace(start, stop, num)]: [arange(0, num) * step + start] with
    [step = (stop - start) / (num - 1)].  numpy then overwrites the last
    element with [stop]; over the reals this is the value it already has. *)
Definition linspace (start stop : R) (num : nat) : list R :=
  map (fun i => INR i * ((stop - start) / INR (num - 1)) + start) (seq 0 num).

(** [x / y] on array elements, for a dividend that is not zero: a zero
    divisor gives an infinity, not an exception. *)
Definition divide (x y : R) : option R :=
  if Req_dec_T y 0 then None else Some (x / y).

(** The value of [np.tan] at a real argument: a real number, or unbounded
    at a pole. *)
Inductive tangent : Type :=
| Tan (t : R)
| Pole.

Definition tan (x : R) : tangent :=
  if Req_dec_T (cos x) 0 then Pole else Tan (Rtrigo1.tan x).

(** [c / np.tan(x)] for a non-zero [c]: 0 at a pole, an infinity where the
    tangent is zero. *)
Definition divide_tan (c : R) (t : tangent) : option R :=
  match t with
  | Pole => Some 0
  | Tan t => divide c t
  end.

(** [x ** y] on floats.  A positive base gives [exp (y * ln x)]; a zero base
    gives 0 for a positive exponent, 1 for a zero exponent and an infinity
    for a negative one; a negative base gives the signed integer power for
    an integral exponent and [nan] otherwise. *)
Definition power (x y : R) : option R :=
  if Rlt_dec 0 x then Some (Rpower x y)
  else if Req_dec_T x 0 then
    if Rlt_dec 0 y then Some 0
    else if Req_dec_T y 0 then Some 1 else None
  else if Req_dec_T (frac_part y) 0 then Some (powerRZ x (Int_part y))
  else None.

End Numpy.

(** ** Functions *)

(** [Saemundsson(h, T=10.0, P=101.0, h_min=-1.0, h_max=90.0)], statement by
    statement; every array operation is a [map].  In line 41 a zero
    [h + 5.11] gives an infinite quotient, whose tangent is [nan].  In line
    44 the factor is computed on Python floats before it meets the array;
    [P / 101.0] has a non-zero literal divisor. *)
Definition Saemundsson (h : list R) (T P h_min h_max : R)
  : result (list (option R)) :=
  let h := map (Numpy.clip h_min h_max) h in
  let R0 :=
    map (fun x =>
           match Numpy.divide 10.3 (x + 5.11) with
           | Some q => Numpy.divide_tan 1.02 (Numpy.tan (Numpy.deg2rad (x + q)))
           | None => None
           end) h in
  let R1 := map (option_map (fun r => r + 0.0019279)) R0 in
  match Python.div 283.0 (273.0 + T) with
  | ZeroDivisionError => ZeroDivisionError
  | Ok q =>
      let R2 := map (option_map (fun r => r * ((P / 101.0) * q))) R1 in
      Ok (map (option_map (fun r => r * (1.0 / 60.0))) R2)
  end.

(** The default values of the keyword arguments. *)
Definition T_default : R := 10.0.
Definition P_default : R := 101.0.
Definition h_min_default : R := -1.0.
Definition h_max_default : R := 90.0.

(** ** Plot script: the elevation series and the curves drawn from it *)

Definition sol_elev : list R := Numpy.linspace (-2.5) 90.0 926.

Record condition := { cond_T : R; cond_P : R; cond_col : string }.

Definition atmos_cond : list condition :=
  [ {| cond_T := 10.0;  cond_P := 101.0; cond_col := "red" |};
    {| cond_T := -30.0; cond_P := 101.0; cond_col := "blue" |};
    {| cond_T := 10.0;  cond_P := 70.0;  cond_col := "coral" |};
    {| cond_T := -30.0; cond_P := 70.0;  cond_col := "cornflowerblue" |} ].

(** The two calls of the plot loop, for one atmospheric condition: the dotted
    comparison curve with [h_min=-20.0] and the solid curve with the default
    bounds. *)
Definition dotted_curve (c : condition) : result (list (option R)) :=
  Saemundsson sol_elev (cond_T c) (cond_P c) (-20.0) h_max_default.

Definition solid_curve (c : condition) : result (list (option R)) :=
  Saemundsson sol_elev (cond_T c) (cond_P c) h_min_default h_max_default.

(** ** Barometric formula *)

Definition T_0 : R := 273.15 + 10.0.
Definition p_0 : R := 101.0.
Definition g : R := 9.81.
Definition R_d : R := 287.0.
Definition tau : R := 0.0065.

Definition z : list R := Numpy.linspace 0.0 31000.0 1000.

(** [p_0 * ((T_0 - tau * z) / T_0) ** (g / (R_d * tau))] on an array of
    altitudes, one array operation after the other. *)
Definition barometric (zs : list R) : list (option R) :=
  let a := map (fun zi => tau * zi) zs in
  let b := map (fun v => T_0 - v) a in
  let c := map (fun v => v / T_0) b in
  let d := map (fun v => Numpy.power v (g / (R_d * tau))) c in
  map (option_map (fun w => p_0 * w)) d.

Definition p : list (option R) := barometric z.

(** ** Element functions

    The array expressions above, read at one element.  They are tied to
    the array functions by [Saemundsson_ok] and [barometric_map]. *)

(** Line 41 at one clipped elevation. *)
Definition tan_quotient (x : R) : option R :=
  match Numpy.divide 10.3 (x + 5.11) with
  | Some q => Numpy.divide_tan 1.02 (Numpy.tan (Numpy.deg2rad (x + q)))
  | None => None
  end.

(** One element of the result of a call that does not raise. *)
Definition Saemundsson_element (T P h_min h_max hi : R) : option R :=
  option_map
    (fun r => (r + 0.0019279) * ((P / 101.0) * (283.0 / (273.0 + T)))
              * (1.0 / 60.0))
    (tan_quotient (Numpy.clip h_min h_max hi)).

(** The argument of the tangent, in degrees, at a clipped elevation. *)
Definition tan_arg (hc : R) : R := hc + 10.3 / (hc + 5.11).

(** The correction in arcminutes at reference conditions, where the
    quotient is a real number. *)
Definition arcmin (hc : R) : R :=
  1.02 / Rtrigo1.tan (Numpy.deg2rad (tan_arg hc)) + 0.0019279.

(** The pressure and temperature factor of [R *= ...]. *)
Definition scale (T P : R) : R := (P / 101.0) * (283.0 / (273.0 + T)).

(** The real value of one element, where it has one. *)
Definition Saemundsson1 (T P h_min h_max hi : R) : R :=
  arcmin (Numpy.clip h_min h_max hi) * scale T P * (1.0 / 60.0).

(** One element of [barometric]. *)
Definition pressure (zi : R) : option R :=
  option_map (fun w => p_0 * w)
             (Numpy.power ((T_0 - tau * zi) / T_0) (g / (R_d * tau))).


(** The clipped elevation at which the tangent argument is smallest: there
    [h + 5.11] equals [10.3 / (h + 5.11)]; about -1.9006. *)
Definition h_peak : R := sqrt 10.3 - 5.11.

(** ** Bounds on [PI] *)

Lemma PI_lower : 3.14159 < PI.
Proof.
  pose proof (PI_2_3_7_ineq 2) as [H _].
  unfold sum_f_R0, tg_alt, PI_2_3_7_tg, Ratan_seq in H.
  simpl in H. lra.
Qed.

Lemma PI_upper : PI < 3.1416.
Proof.
  pose proof (PI_2_3_7_ineq 2) as [_ H].
  unfold sum_f_R0, tg_alt, PI_2_3_7_tg, Ratan_seq in H.
  simpl in H. lra.
Qed.

(** ** Clipping and grids *)

Lemma clip_idem lo hi x :
  Numpy.clip lo hi (Numpy.clip lo hi x) = Numpy.clip lo hi x.
Proof.
  unfold Numpy.clip, Rmin, Rmax.
  repeat (destruct (Rle_dec _ _); try lra).
Qed.

Lemma clip_bounds lo hi x :
  lo <= hi -> lo <= Numpy.clip lo hi x <= hi.
Proof.
  intros Hb. unfold Numpy.clip, Rmin, Rmax.
  repeat (destruct (Rle_dec _ _); try lra).
Qed.

Lemma clip_inside lo hi x :
  lo <= x <= hi -> Numpy.clip lo hi x = x.
Proof.
  intros Hx. unfold Numpy.clip, Rmin, Rmax.
  repeat (destruct (Rle_dec _ _); try lra).
Qed.

Lemma clip_below lo hi x : lo <= hi -> x <= lo -> Numpy.clip lo hi x = lo.
Proof.
  intros Hb Hx. unfold Numpy.clip, Rmin, Rmax.
  repeat (destruct (Rle_dec _ _); try lra).
Qed.

Lemma clip_above lo hi x : hi <= x -> Numpy.clip lo hi x = hi.
Proof.
  intros Hx. unfold Numpy.clip, Rmin, Rmax.
  repeat (destruct (Rle_dec _ _); try lra).
Qed.

Lemma clip_inverted lo hi x : hi < lo -> Numpy.clip lo hi x = hi.
Proof.
  intros Hb. unfold Numpy.clip, Rmin, Rmax.
  repeat (destruct (Rle_dec _ _); try lra).
Qed.

Lemma linspace_length start stop num :
  length (Numpy.linspace start stop num) = num.
Proof.
  unfold Numpy.linspace. now rewrite length_map, length_seq.
Qed.

Lemma linspace_In start stop num x :
  In x (Numpy.linspace start stop num) ->
  exists i, (i < num)%nat /\ x = INR i * ((stop - start) / INR (num - 1)) + start.
Proof.
  unfold Numpy.linspace. rewrite in_map_iff.
  intros [i [Hx Hi]]. apply in_seq in Hi.
  exists i. split; [lia | now symmetry].
Qed.

Lemma linspace_nth start stop num i :
  (i < num)%nat ->
  nth_error (Numpy.linspace start stop num) i
  = Some (INR i * ((stop - start) / INR (num - 1)) + start).
Proof.
  intros Hi. unfold Numpy.linspace.
  rewrite nth_error_map, nth_error_seq.
  apply Nat.ltb_lt in Hi. now rewrite Hi.
Qed.

Lemma sol_elev_range x : In x sol_elev -> -2.5 <= x <= 90.
Proof.
  intros Hx. apply linspace_In in Hx. destruct Hx as [i [Hi ->]].
  replace (926 - 1)%nat with 925%nat by reflexivity.
  assert (H0 : 0 <= INR i) by apply pos_INR.
  assert (H1 : INR i <= INR 925) by (apply le_INR; lia).
  rewrite (INR_IZR_INZ 925) in *. simpl Z.of_nat in *.
  lra.
Qed.

(** ** The pressure of one altitude *)

Lemma barometric_map zs : barometric zs = map pressure zs.
Proof.
  unfold barometric. rewrite !map_map. reflexivity.
Qed.

Lemma power_pos x y : 0 < x -> Numpy.power x y = Some (Rpower x y).
Proof.
  intros Hx. unfold Numpy.power. destruct (Rlt_dec 0 x); [reflexivity | lra].
Qed.

Lemma T_0_value : T_0 = 283.15.
Proof. unfold T_0. lra. Qed.

Lemma exponent_pos : 0 < g / (R_d * tau).
Proof.
  unfold g, R_d, tau. apply Rdiv_lt_0_compat; lra.
Qed.

Lemma pressure_defined zi :
  0 < T_0 - tau * zi ->
  pressure zi = Some (p_0 * Rpower ((T_0 - tau * zi) / T_0) (g / (R_d * tau))).
Proof.
  intros Hz. unfold pressure. rewrite power_pos; [reflexivity | ].
  apply Rdiv_lt_0_compat; [exact Hz | rewrite T_0_value; lra].
Qed.

Lemma altitude_in_domain zi : 0 <= zi <= 31000 -> 0 < T_0 - tau * zi.
Proof.
  intros Hz. rewrite T_0_value. unfold tau. lra.
Qed.

Lemma z_range zi : In zi z -> 0 <= zi <= 31000.
Proof.
  intros Hz. apply linspace_In in Hz. destruct Hz as [i [Hi ->]].
  replace (1000 - 1)%nat with 999%nat by reflexivity.
  assert (H0 : 0 <= INR i) by apply pos_INR.
  assert (H1 : INR i <= INR 999) by (apply le_INR; lia).
  rewrite (INR_IZR_INZ 999) in *. simpl Z.of_nat in *.
  lra.
Qed.

(** Every pressure of the script's array [p] is defined. *)
Lemma p_defined : Forall (fun v => v <> None) p.
Proof.
  unfold p. rewrite barometric_map. apply Forall_forall.
  intros v Hv. apply in_map_iff in Hv. destruct Hv as [zi [<- Hz]].
  rewrite pressure_defined by (apply altitude_in_domain, z_range, Hz).
  discriminate.
Qed.

Lemma Rpower_base_1 y : Rpower 1 y = 1.
Proof.
  unfold Rpower. now rewrite ln_1, Rmult_0_r, exp_0.
Qed.

Lemma Rpower_pos x y : 0 < Rpower x y.
Proof. unfold Rpower. apply exp_pos. Qed.

(** ** Trigonometric facts *)

(** In the model, dividing by [tan] is multiplying with the cotangent, also
    at a pole of [tan]. *)
Lemma div_tan c x : c / tan x = c * (cos x / sin x).
Proof.
  unfold tan, Rdiv. rewrite Rinv_mult, Rinv_inv. ring.
Qed.

Lemma cot_decreasing a b :
  0 < a -> a <= b -> b < PI -> cos b / sin b <= cos a / sin a.
Proof.
  intros Ha Hab Hb.
  assert (Sa : 0 < sin a) by (apply sin_gt_0; lra).
  assert (Sb : 0 < sin b) by (apply sin_gt_0; lra).
  assert (Sd : 0 <= sin (b - a)) by (apply sin_ge_0; lra).
  assert (E : cos a / sin a - cos b / sin b = sin (b - a) / (sin a * sin b)).
  { rewrite sin_minus. field. lra. }
  assert (0 <= sin (b - a) / (sin a * sin b)).
  { apply Rmult_le_pos; [exact Sd | ].
    apply Rlt_le, Rinv_0_lt_compat, Rmult_lt_0_compat; assumption. }
  lra.
Qed.

Lemma cot_strictly_decreasing a b :
  0 < a -> a < b -> b < PI -> cos b / sin b < cos a / sin a.
Proof.
  intros Ha Hab Hb.
  assert (Sa : 0 < sin a) by (apply sin_gt_0; lra).
  assert (Sb : 0 < sin b) by (apply sin_gt_0; lra).
  assert (Sd : 0 < sin (b - a)) by (apply sin_gt_0; lra).
  assert (E : cos a / sin a - cos b / sin b = sin (b - a) / (sin a * sin b)).
  { rewrite sin_minus. field. lra. }
  assert (0 < sin (b - a) / (sin a * sin b)).
  { apply Rdiv_lt_0_compat; [exact Sd | ].
    apply Rmult_lt_0_compat; assumption. }
  lra.
Qed.

Lemma sin_lower y : 0 <= y <= 4 -> y - y * y * y / 6 <= sin y.
Proof.
  intros [H0 H4]. pose proof (pre_sin_bound y 0 H0 H4) as [H _].
  unfold sin_approx, sin_term, sum_f_R0 in H. simpl in H. lra.
Qed.

Lemma cos_lower y : -2 <= y <= 2 -> 1 - y * y / 2 <= cos y.
Proof.
  intros [H0 H2]. pose proof (pre_cos_bound y 0 H0 H2) as [H _].
  unfold cos_approx, cos_term, sum_f_R0 in H. simpl in H. lra.
Qed.

(** For a small positive angle, [y - y^3/6 <= tan y <= y / (1 - y^2/2)],
    with the tangent written as the quotient it is. *)
Lemma small_angle y :
  0 < y <= 1 ->
  0 < cos y /\ y - y * y * y / 6 <= sin y / cos y <= y / (1 - y * y / 2).
Proof.
  intros [H0 H1].
  pose proof (sin_lower y ltac:(lra)) as Sl.
  pose proof (sin_lt_x y H0) as Su.
  pose proof (cos_lower y ltac:(lra)) as Cl.
  pose proof (COS_bound y) as [_ Cu].
  assert (Hq : 0 < 1 - y * y / 2) by nra.
  assert (Hc : 0 < cos y) by lra.
  assert (Hs : 0 <= y - y * y * y / 6) by nra.
  split; [exact Hc | split].
  - apply Rle_trans with (sin y); [exact Sl | ].
    apply Rmult_le_reg_r with (cos y); [exact Hc | ].
    unfold Rdiv. rewrite Rmult_assoc, Rinv_l, Rmult_1_r by lra. nra.
  - apply Rmult_le_reg_r with (cos y); [exact Hc | ].
    unfold Rdiv at 1. rewrite Rmult_assoc, Rinv_l, Rmult_1_r by lra.
    apply Rle_trans with y; [lra | ].
    apply Rmult_le_reg_r with (1 - y * y / 2); [exact Hq | ].
    replace (y / (1 - y * y / 2) * cos y * (1 - y * y / 2)) with (y * cos y)
      by (field; lra).
    nra.
Qed.

(** ** The argument of the tangent *)

Lemma tan_arg_monotone h1 h2 :
  -1 <= h1 -> h1 <= h2 -> tan_arg h1 <= tan_arg h2.
Proof.
  intros H1 H12. unfold tan_arg.
  set (d := (h1 + 5.11) * (h2 + 5.11)).
  assert (Hd : 16.8 <= d) by (unfold d; nra).
  assert (E : 10.3 / (h1 + 5.11) - 10.3 / (h2 + 5.11) = 10.3 * (h2 - h1) / d).
  { unfold d. field. split; lra. }
  assert (10.3 * (h2 - h1) / d <= h2 - h1).
  { apply Rmult_le_reg_r with d; [lra | ].
    unfold Rdiv. rewrite Rmult_assoc, Rinv_l, Rmult_1_r by lra. nra. }
  lra.
Qed.

Lemma tan_arg_range hc : -1 <= hc <= 90 -> 1.5 < tan_arg hc < 90.11.
Proof.
  intros [Hl Hu].
  pose proof (tan_arg_monotone (-1) hc ltac:(lra) Hl) as L.
  pose proof (tan_arg_monotone hc 90 Hl Hu) as U.
  unfold tan_arg in *. lra.
Qed.

Lemma tan_arg_range_wide hc : -5 <= hc <= 90 -> 1.3 < tan_arg hc < 180.
Proof.
  intros [Hl Hu]. unfold tan_arg.
  remember (hc + 5.11) as d eqn:Ed.
  assert (Hd : 0.11 <= d <= 95.11) by lra.
  assert (E : 10.3 / d * d = 10.3) by (field; lra).
  assert (Hq : 0 < 10.3 / d) by (apply Rdiv_lt_0_compat; lra).
  remember (10.3 / d) as q eqn:Eq.
  assert (Hc : hc = d - 5.11) by lra. rewrite Hc. clear Ed Eq Hc Hl Hu.
  split.
  - pose proof (Rle_0_sqr (d - q)) as Sq. unfold Rsqr in Sq.
    assert (Ex : (d + q) * (d + q) = (d - q) * (d - q) + 4 * (q * d)) by ring.
    destruct (Rlt_dec 6.41 (d + q)) as [Hlt | Hge]; [lra | exfalso].
    assert ((d + q) * (d + q) <= 6.41 * 6.41)
      by (apply Rmult_le_compat; lra).
    lra.
  - destruct (Rle_dec d 5.11) as [Hs | Hs].
    + assert (q * 0.11 <= q * d) by (apply Rmult_le_compat_l; lra). lra.
    + assert (q * 5.11 <= q * d) by (apply Rmult_le_compat_l; lra). lra.
Qed.

Lemma tan_arg_diff h1 h2 :
  0 < h1 + 5.11 -> 0 < h2 + 5.11 ->
  tan_arg h2 - tan_arg h1
  = (h2 - h1) * (1 - 10.3 / ((h1 + 5.11) * (h2 + 5.11))).
Proof.
  intros H1 H2. unfold tan_arg. field. split; lra.
Qed.

Lemma deg2rad_range a : 0 < a < 180 -> 0 < Numpy.deg2rad a < PI.
Proof.
  intros [H0 H1]. unfold Numpy.deg2rad.
  pose proof PI_RGT_0. split.
  - apply Rmult_lt_0_compat; lra.
  - replace PI with (180 * (PI / 180)) at 2 by field.
    apply Rmult_lt_compat_r; lra.
Qed.

Lemma arcmin_cot hc :
  arcmin hc =
  1.02 * (cos (Numpy.deg2rad (tan_arg hc)) / sin (Numpy.deg2rad (tan_arg hc)))
  + 0.0019279.
Proof.
  unfold arcmin. now rewrite div_tan.
Qed.

Lemma arcmin_monotone h1 h2 :
  -1 <= h1 -> h1 <= h2 -> h2 <= 90 -> arcmin h2 <= arcmin h1.
Proof.
  intros H1 H12 H2. rewrite !arcmin_cot.
  pose proof (tan_arg_range h1 ltac:(lra)) as R1.
  pose proof (tan_arg_range h2 ltac:(lra)) as R2.
  pose proof (tan_arg_monotone h1 h2 H1 H12) as M.
  pose proof (deg2rad_range (tan_arg h1) ltac:(lra)) as D1.
  pose proof (deg2rad_range (tan_arg h2) ltac:(lra)) as D2.
  assert (Numpy.deg2rad (tan_arg h1) <= Numpy.deg2rad (tan_arg h2)).
  { unfold Numpy.deg2rad. apply Rmult_le_compat_r; [ | exact M].
    pose proof PI_RGT_0. lra. }
  pose proof (cot_decreasing _ _ (proj1 D1) H (proj2 D2)). lra.
Qed.

Lemma arcmin_strictly_antitone_in_arg h1 h2 :
  -5 <= h1 <= 90 -> -5 <= h2 <= 90 ->
  tan_arg h1 < tan_arg h2 -> arcmin h2 < arcmin h1.
Proof.
  intros R1 R2 M. rewrite !arcmin_cot.
  pose proof (tan_arg_range_wide h1 R1) as W1.
  pose proof (tan_arg_range_wide h2 R2) as W2.
  pose proof (deg2rad_range (tan_arg h1) ltac:(lra)) as D1.
  pose proof (deg2rad_range (tan_arg h2) ltac:(lra)) as D2.
  assert (Numpy.deg2rad (tan_arg h1) < Numpy.deg2rad (tan_arg h2)).
  { unfold Numpy.deg2rad. apply Rmult_lt_compat_r; [ | exact M].
    pose proof PI_RGT_0. lra. }
  pose proof (cot_strictly_decreasing _ _ (proj1 D1) H (proj2 D2)). lra.
Qed.

(** ** Values near the zenith and at the horizon *)

(** Past 90 degrees the cotangent is minus the tangent of the excess. *)
Lemma arcmin_past_90 hc d :
  tan_arg hc = 90 + d ->
  arcmin hc =
  0.0019279 - 1.02 * (sin (Numpy.deg2rad d) / cos (Numpy.deg2rad d)).
Proof.
  intros E. rewrite arcmin_cot, E.
  replace (Numpy.deg2rad (90 + d)) with (PI / 2 + Numpy.deg2rad d)
    by (unfold Numpy.deg2rad; field).
  rewrite <- cos_sin.
  replace (cos (PI / 2 + Numpy.deg2rad d)) with (- sin (Numpy.deg2rad d))
    by (rewrite (sin_cos (Numpy.deg2rad d)); ring).
  unfold Rdiv. ring.
Qed.

Lemma arcmin_zenith : -2.8e-8 <= arcmin 90 <= -1.5e-8.
Proof.
  rewrite (arcmin_past_90 90 (10.3 / 95.11)) by (unfold tan_arg; lra).
  set (y := Numpy.deg2rad (10.3 / 95.11)).
  pose proof PI_lower as Pl. pose proof PI_upper as Pu.
  assert (Hy : 0.001890114 < y < 0.001890121) by (unfold y, Numpy.deg2rad; lra).
  destruct (small_angle y ltac:(lra)) as [Hc [Hl Hu]].
  assert (Hyy : y * y < 3.6e-6) by nra.
  assert (Hyyy : y * y * y < 6.9e-9) by nra.
  assert (Hq : y / (1 - y * y / 2) <= 0.001890125).
  { apply Rmult_le_reg_r with (1 - y * y / 2); [lra | ].
    unfold Rdiv at 1. rewrite Rmult_assoc, Rinv_l, Rmult_1_r by lra. nra. }
  unfold y, Numpy.deg2rad in *. lra.
Qed.

Lemma arcmin_below_zenith : 0 <= arcmin 89.9999.
Proof.
  rewrite (arcmin_past_90 89.9999 (10.3 / 95.1099 - 0.0001))
    by (unfold tan_arg; lra).
  set (y := Numpy.deg2rad (10.3 / 95.1099 - 0.0001)).
  pose proof PI_lower as Pl. pose proof PI_upper as Pu.
  assert (Hy : 0.00188 < y < 0.0018884) by (unfold y, Numpy.deg2rad; lra).
  destruct (small_angle y ltac:(lra)) as [Hc [Hl Hu]].
  assert (Hq : y / (1 - y * y / 2) <= 0.0018885).
  { apply Rmult_le_reg_r with (1 - y * y / 2); [nra | ].
    unfold Rdiv at 1. rewrite Rmult_assoc, Rinv_l, Rmult_1_r by nra. nra. }
  lra.
Qed.

Lemma arcmin_horizon : 28.975 <= arcmin 0 <= 29.003.
Proof.
  rewrite arcmin_cot.
  replace (tan_arg 0) with (10.3 / 5.11) by (unfold tan_arg; lra).
  set (x := Numpy.deg2rad (10.3 / 5.11)).
  pose proof PI_lower as Pl. pose proof PI_upper as Pu.
  assert (Hx : 0.035179 < x < 0.035181) by (unfold x, Numpy.deg2rad; lra).
  destruct (small_angle x ltac:(lra)) as [Hc [Hl Hu]].
  assert (Hxx : x * x < 0.00124) by nra.
  assert (Hxxx : x * x * x < 0.0000437) by nra.
  assert (Hq : x / (1 - x * x / 2) <= 0.035203).
  { apply Rmult_le_reg_r with (1 - x * x / 2); [lra | ].
    unfold Rdiv at 1. rewrite Rmult_assoc, Rinv_l, Rmult_1_r by lra. nra. }
  set (t := sin x / cos x) in *.
  assert (Ht : 0.0351717 <= t <= 0.035203) by lra.
  assert (Hs : 0 < sin x) by (apply sin_gt_0; lra).
  assert (E : cos x / sin x * t = 1) by (unfold t; field; lra).
  set (c := cos x / sin x) in *.
  assert (Hcpos : 0 < c)
    by (unfold c; apply Rdiv_lt_0_compat; assumption).
  split; nra.
Qed.

Lemma arcmin_lowest_clip : arcmin (-1) <= 38.82.
Proof.
  rewrite arcmin_cot.
  replace (tan_arg (-1)) with (-1 + 10.3 / 4.11) by (unfold tan_arg; lra).
  set (x := Numpy.deg2rad (-1 + 10.3 / 4.11)).
  pose proof PI_lower as Pl. pose proof PI_upper as Pu.
  assert (Hx : 0.026286 < x < 0.026287) by (unfold x, Numpy.deg2rad; lra).
  destruct (small_angle x ltac:(lra)) as [Hc [Hl _]].
  assert (Hxx : x * x < 0.0007) by nra.
  assert (Hxxx : x * x * x < 0.0000185) by nra.
  set (t := sin x / cos x) in *.
  assert (Ht : 0.02628 <= t) by lra.
  assert (Hs : 0 < sin x) by (apply sin_gt_0; lra).
  assert (E : cos x / sin x * t = 1) by (unfold t; field; lra).
  set (c := cos x / sin x) in *.
  assert (Hcpos : 0 < c)
    by (unfold c; apply Rdiv_lt_0_compat; assumption).
  nra.
Qed.

(** ** The pole of the tangent inside the default clip range *)







Lemma sqrt_10_3 :
  3.2 < sqrt 10.3 < 3.21 /\ sqrt 10.3 * sqrt 10.3 = 10.3.
Proof.
  pose proof (sqrt_def 10.3 ltac:(lra)) as E.
  pose proof (sqrt_pos 10.3) as P0.
  split; [split; nra | exact E].
Qed.

(** ** The scaling factor *)

Lemma scale_reference : scale 10.0 101.0 = 1.
Proof. unfold scale. lra. Qed.

Lemma scale_nonneg T P : -273 < T -> 0 <= P -> 0 <= scale T P.
Proof.
  intros HT HP. unfold scale.
  apply Rmult_le_pos.
  - apply Rmult_le_pos; [exact HP | apply Rlt_le, Rinv_0_lt_compat; lra].
  - apply Rlt_le, Rdiv_lt_0_compat; lra.
Qed.

(** ** Arrays and elements *)

Lemma Saemundsson_ok h T P h_min h_max :
  273.0 + T <> 0 ->
  Saemundsson h T P h_min h_max
  = Ok (map (Saemundsson_element T P h_min h_max) h).
Proof.
  intros HT. unfold Saemundsson, Python.div.
  destruct (Req_dec_T (273.0 + T) 0) as [E | _]; [contradiction | ].
  f_equal. rewrite !map_map. apply map_ext. intros hi.
  unfold Saemundsson_element, tan_quotient.
  destruct (Numpy.divide 10.3 _) as [q | ]; [ | reflexivity].
  destruct (Numpy.divide_tan 1.02 _); reflexivity.
Qed.

Lemma Saemundsson_raises h T P h_min h_max :
  273.0 + T = 0 -> Saemundsson h T P h_min h_max = ZeroDivisionError.
Proof.
  intros HT. unfold Saemundsson, Python.div.
  destruct (Req_dec_T (273.0 + T) 0) as [_ | N]; [reflexivity | contradiction].
Qed.

Lemma Saemundsson_same_clip h h' T P h_min h_max :
  map (Numpy.clip h_min h_max) h = map (Numpy.clip h_min h_max) h' ->
  Saemundsson h T P h_min h_max = Saemundsson h' T P h_min h_max.
Proof.
  intros E. unfold Saemundsson. now rewrite E.
Qed.

Lemma tan_quotient_defined x :
  x + 5.11 <> 0 ->
  sin (Numpy.deg2rad (tan_arg x)) <> 0 ->
  tan_quotient x = Some (1.02 / tan (Numpy.deg2rad (tan_arg x))).
Proof.
  intros Hd Hs. unfold tan_quotient, Numpy.divide at 1.
  destruct (Req_dec_T (x + 5.11) 0) as [E | _]; [contradiction | ].
  fold (tan_arg x). set (a := Numpy.deg2rad (tan_arg x)) in *.
  unfold Numpy.tan. destruct (Req_dec_T (cos a) 0) as [Hc | Hc]; simpl.
  - f_equal. unfold tan, Rdiv. rewrite Hc, Rinv_0, Rmult_0_r, Rinv_0. ring.
  - unfold Numpy.divide.
    destruct (Req_dec_T (tan a) 0) as [Ht | _]; [exfalso | reflexivity].
    apply Hs. replace (sin a) with (tan a * cos a)
      by (unfold tan; field; exact Hc).
    rewrite Ht. ring.
Qed.

Lemma element_value T P h_min h_max hi :
  -5 <= Numpy.clip h_min h_max hi <= 90 ->
  Saemundsson_element T P h_min h_max hi
  = Some (Saemundsson1 T P h_min h_max hi).
Proof.
  intros Hc. unfold Saemundsson_element, Saemundsson1.
  set (hc := Numpy.clip h_min h_max hi) in *.
  pose proof (tan_arg_range_wide hc Hc) as W.
  pose proof (deg2rad_range (tan_arg hc) ltac:(lra)) as D.
  rewrite tan_quotient_defined.
  - reflexivity.
  - lra.
  - apply Rgt_not_eq, sin_gt_0; lra.
Qed.

Lemma Saemundsson_value h T P h_min h_max :
  273.0 + T <> 0 ->
  (forall hi, In hi h -> -5 <= Numpy.clip h_min h_max hi <= 90) ->
  Saemundsson h T P h_min h_max
  = Ok (map (fun hi => Some (Saemundsson1 T P h_min h_max hi)) h).
Proof.
  intros HT Hh. rewrite Saemundsson_ok by exact HT. f_equal.
  apply map_ext_in. intros hi Hin. apply element_value, Hh, Hin.
Qed.

Lemma default_clip_wide hi :
  -5 <= Numpy.clip h_min_default h_max_default hi <= 90.
Proof.
  pose proof (clip_bounds h_min_default h_max_default hi) as Hb.
  unfold h_min_default, h_max_default in *. lra.
Qed.

Lemma Saemundsson_default_value h T P :
  273.0 + T <> 0 ->
  Saemundsson h T P h_min_default h_max_default
  = Ok (map (fun hi => Some (Saemundsson1 T P h_min_default h_max_default hi))
            h).
Proof.
  intros HT. apply Saemundsson_value; [exact HT | ].
  intros hi _. apply default_clip_wide.
Qed.

(** ** Element-wise formulas *)

(** C1 (amended).  For every sequence [h] and scalars [T <> -273], [P],
    [h_min], [h_max] the call returns an output of the length and ordering
    of [h], and its i-th element is
    [((1.02 / tan (deg2rad (hc + 10.3 / (hc + 5.11))) + 0.0019279)
      * (P / 101.0) * (283.0 / (273.0 + T))) * (1 / 60)]
    with [hc = min (max h[i] h_min) h_max] the clipped i-th input, wherever
    [hc + 5.11] is non-zero and the tangent is defined and non-zero. *)
Theorem Saemundsson_elementwise (h : list R) (T P h_min h_max : R) :
  273.0 + T <> 0 ->
  exists out : list (option R),
    Saemundsson h T P h_min h_max = Ok out /\
    length out = length h /\
    forall (i : nat) (hi : R),
      nth_error h i = Some hi ->
      let hc := Rmin (Rmax hi h_min) h_max in
      hc + 5.11 <> 0 ->
      cos (Numpy.deg2rad (hc + 10.3 / (hc + 5.11))) <> 0 ->
      tan (Numpy.deg2rad (hc + 10.3 / (hc + 5.11))) <> 0 ->
      nth_error out i =
      Some (Some
        (((1.02 / tan (Numpy.deg2rad (hc + 10.3 / (hc + 5.11))) + 0.0019279)
          * (P / 101.0) * (283.0 / (273.0 + T))) * (1 / 60))).
Proof.
  intros HT. eexists. split; [apply Saemundsson_ok, HT | ].
  split; [apply length_map | ].
  intros i hi Hi hc Hd Hc Ht. rewrite nth_error_map, Hi.
  cbn [option_map]. f_equal.
  unfold Saemundsson_element. fold (Numpy.clip h_min h_max hi). fold hc.
  rewrite tan_quotient_defined.
  - cbn [option_map]. f_equal. unfold tan_arg, hc, Numpy.clip.
    replace (1.0 / 60.0) with (1 / 60) by lra. ring.
  - exact Hd.
  - unfold tan_arg. intros Hs. apply Ht.
    change (sin (Numpy.deg2rad (hc + 10.3 / (hc + 5.11))) = 0) in Hs.
    unfold tan. rewrite Hs. unfold Rdiv. ring.
Qed.

Lemma Saemundsson_elementwise_witness :
  exists out : list (option R),
    Saemundsson [0] 10 101 (-1) 90 = Ok out /\
    length out = 1%nat /\
    nth_error out 0 =
    Some (Some
      (((1.02 / tan (Numpy.deg2rad
                       (Rmin (Rmax 0 (-1)) 90
                        + 10.3 / (Rmin (Rmax 0 (-1)) 90 + 5.11)))
         + 0.0019279)
        * (101 / 101.0) * (283.0 / (273.0 + 10))) * (1 / 60))).
Proof.
  destruct (Saemundsson_elementwise [0] 10 101 (-1) 90 ltac:(lra))
    as [out [E [L F]]].
  exists out. split; [exact E | split; [exact L | ]].
  assert (Hc : Rmin (Rmax 0 (-1)) 90 = 0)
    by (apply (clip_inside (-1) 90 0); lra).
  assert (Hx : 0 < Numpy.deg2rad (0 + 10.3 / (0 + 5.11)) < PI / 2).
  { unfold Numpy.deg2rad. pose proof PI_lower. pose proof PI_upper.
    split; lra. }
  apply (F 0%nat 0 eq_refl); cbv zeta; rewrite Hc.
  - lra.
  - apply Rgt_not_eq, cos_gt_0; lra.
  - apply Rgt_not_eq, tan_gt_0; lra.
Defined.

(** C1 as stated fails: at [T = -273] the call raises [ZeroDivisionError]
    and has no output; and a clipped element -5.11 (reachable with
    [h_min = -20]) is [nan], not a real number. *)
Lemma Saemundsson_no_output_at_minus_273 :
  Saemundsson [0.0] (-273.0) 101.0 (-1.0) 90.0 = ZeroDivisionError
  /\ Saemundsson [-5.11] 10.0 101.0 (-20.0) 90.0 = Ok [None].
Proof.
  split.
  - apply Saemundsson_raises. lra.
  - rewrite Saemundsson_ok by lra. cbn [map]. do 2 f_equal.
    unfold Saemundsson_element, tan_quotient.
    rewrite clip_inside by lra.
    unfold Numpy.divide. destruct (Req_dec_T (-5.11 + 5.11) 0) as [_ | N].
    + reflexivity.
    + exfalso. apply N. lra.
Qed.

(** C2.  For every altitude [z[i]] of the input array with
    [T0 - tau * z[i] > 0], the i-th computed pressure is
    [p0 * ((T0 - tau * z[i]) / T0) ^ (g / (Rd * tau))] with [T0 = 283.15],
    [p0 = 101.0], [g = 9.81], [Rd = 287.0] and [tau = 0.0065], the power of
    a positive base being [exp (y * ln x)]. *)
Theorem barometric_elementwise (zs : list R) (i : nat) (zi : R) :
  nth_error zs i = Some zi ->
  283.15 - 0.0065 * zi > 0 ->
  nth_error (barometric zs) i =
  Some (Some (101.0 * Rpower ((283.15 - 0.0065 * zi) / 283.15)
                             (9.81 / (287.0 * 0.0065)))).
Proof.
  intros Hi Hz. rewrite barometric_map, nth_error_map, Hi. simpl.
  rewrite pressure_defined.
  - unfold p_0, g, R_d, tau. rewrite T_0_value. reflexivity.
  - rewrite T_0_value. unfold tau. lra.
Qed.

Lemma barometric_elementwise_witness :
  nth_error (barometric [1000]) 0 =
  Some (Some (101.0 * Rpower ((283.15 - 0.0065 * 1000) / 283.15)
                             (9.81 / (287.0 * 0.0065)))).
Proof.
  apply (barometric_elementwise [1000] 0 1000).
  - reflexivity.
  - lra.
Defined.

(** ** Clipping and scaling *)

(** C6.  Clipping first changes nothing: for all inputs [h] and bounds [a],
    [b], [Saemundsson h] with [h_min = a], [h_max = b] equals [Saemundsson]
    of the clipped input [clip h a b] with the same bounds. *)
Theorem Saemundsson_clip_idempotent (h : list R) (T P a b : R) :
  Saemundsson h T P a b = Saemundsson (map (Numpy.clip a b) h) T P a b.
Proof.
  apply Saemundsson_same_clip. rewrite map_map. apply map_ext.
  intros hi. symmetry. apply clip_idem.
Qed.

(** C7 (amended).  Scaling: for every [T' <> -273] and every [P'], the
    result at the reference conditions [T = 10], [P = 101], multiplied
    element by element with [(P' / 101) * (283 / (273 + T'))], is the result
    at [T = T'], [P = P'].  It holds for every input and all clip bounds,
    in particular for an [h] within the bounds. *)
Theorem Saemundsson_scaling (h : list R) (T' P' h_min h_max : R) :
  273 + T' <> 0 ->
  exists out : list (option R),
    Saemundsson h 10 101 h_min h_max = Ok out /\
    Saemundsson h T' P' h_min h_max
    = Ok (map (option_map (fun r => r * ((P' / 101) * (283 / (273 + T')))))
              out).
Proof.
  intros HT.
  assert (HT' : 273.0 + T' <> 0) by (intros E; apply HT; lra).
  eexists. split; [apply Saemundsson_ok; lra | ].
  rewrite Saemundsson_ok by exact HT'. f_equal.
  rewrite map_map. apply map_ext. intros hi.
  unfold Saemundsson_element.
  destruct (tan_quotient (Numpy.clip h_min h_max hi)) as [r | ];
    [cbn [option_map]; f_equal | reflexivity].
  replace (101 / 101.0) with 1 by lra.
  replace (283.0 / (273.0 + 10)) with 1 by lra.
  replace (P' / 101) with (P' / 101.0) by lra.
  replace (283 / (273 + T')) with (283.0 / (273.0 + T')).
  - ring.
  - replace 283.0 with 283 by lra. replace 273.0 with 273 by lra. reflexivity.
Qed.

Lemma Saemundsson_scaling_witness :
  exists out : list (option R),
    Saemundsson [0; 45] 10 101 (-1) 90 = Ok out /\
    Saemundsson [0; 45] (-30) 70 (-1) 90
    = Ok (map (option_map (fun r => r * ((70 / 101) * (283 / (273 + -30)))))
              out).
Proof.
  apply (Saemundsson_scaling [0; 45] (-30) 70 (-1) 90). lra.
Defined.

(** C7 as stated fails at [T' = -273]: the reference call returns, the
    call at [T'] raises [ZeroDivisionError]. *)
Lemma Saemundsson_scaling_raises :
  (exists out, Saemundsson [0.0] 10.0 101.0 (-1.0) 90.0 = Ok out)
  /\ Saemundsson [0.0] (-273.0) 101.0 (-1.0) 90.0 = ZeroDivisionError.
Proof.
  split.
  - eexists. apply Saemundsson_ok. lra.
  - apply Saemundsson_raises. lra.
Qed.

(** ** The calls of the plot script *)


(** ** Monotonicity of the barometric formula *)

(** C8.  The barometric pressure is strictly decreasing in altitude: for
    all [z1 < z2] in [0, 31000] the pressures computed for the array
    [[z1; z2]] are both defined, and the first is greater than the
    second. *)
Theorem pressure_strictly_decreasing (z1 z2 : R) :
  0 <= z1 -> z1 < z2 -> z2 <= 31000 ->
  exists p1 p2 : R,
    barometric [z1; z2] = [Some p1; Some p2] /\ p1 > p2.
Proof.
  intros H0 H12 H31.
  pose proof (altitude_in_domain z1 ltac:(lra)) as D1.
  pose proof (altitude_in_domain z2 ltac:(lra)) as D2.
  rewrite barometric_map. cbn [map].
  rewrite !pressure_defined by assumption.
  do 2 eexists. split; [reflexivity | ].
  assert (HT : 0 < T_0) by (rewrite T_0_value; lra).
  apply Rmult_lt_compat_l; [unfold p_0; lra | ].
  apply Rlt_Rpower_l; [exact exponent_pos | ].
  split.
  - apply Rdiv_lt_0_compat; assumption.
  - unfold Rdiv. apply Rmult_lt_compat_r; [now apply Rinv_0_lt_compat | ].
    unfold tau. lra.
Qed.

Lemma pressure_strictly_decreasing_witness :
  exists p1 p2 : R,
    barometric [0; 31000] = [Some p1; Some p2] /\ p1 > p2.
Proof.
  apply (pressure_strictly_decreasing 0 31000); lra.
Defined.

(** ** Values at the horizon and at the zenith *)

Lemma one_in_range (lo hi x : R) :
  lo <= x <= hi -> -5 <= x <= 90 ->
  forall y, In y [x] -> -5 <= Numpy.clip lo hi y <= 90.
Proof.
  intros Hx Hr y [<- | []]. now rewrite clip_inside.
Qed.

Lemma two_in_range (lo hi x1 x2 : R) :
  lo <= x1 <= hi -> -5 <= x1 <= 90 ->
  lo <= x2 <= hi -> -5 <= x2 <= 90 ->
  forall y, In y [x1; x2] -> -5 <= Numpy.clip lo hi y <= 90.
Proof.
  intros H1 R1 H2 R2 y [<- | [<- | []]]; now rewrite clip_inside.
Qed.

Lemma warm T : -273 < T -> 273.0 + T <> 0.
Proof. intros HT E. lra. Qed.

Lemma horizon_value :
  Saemundsson [0.0] 10.0 101.0 (-20.0) 90.0
  = Ok [Some (Saemundsson1 10.0 101.0 (-20.0) 90.0 0.0)]
  /\ 0.4829 < Saemundsson1 10.0 101.0 (-20.0) 90.0 0.0 < 0.4834.
Proof.
  split.
  - rewrite Saemundsson_value; [reflexivity | lra | ].
    apply one_in_range; lra.
  - unfold Saemundsson1.
    rewrite scale_reference, clip_inside by lra.
    replace 0.0 with 0 by lra.
    pose proof arcmin_horizon. lra.
Qed.

Lemma zenith_value T P :
  273.0 + T <> 0 ->
  Saemundsson [90.0] T P h_min_default h_max_default
  = Ok [Some (arcmin 90 * scale T P * (1.0 / 60.0))].
Proof.
  intros HT. rewrite Saemundsson_default_value by exact HT.
  cbn [map]. unfold Saemundsson1, h_min_default, h_max_default.
  rewrite clip_inside by lra. now replace 90.0 with 90 by lra.
Qed.

(** C3 (amended).  With [T = 10], [P = 101], [h_min = -20] and the input
    [h = 0.0] the correction is approximately 0.483 degrees, within
    1e-3. *)
Theorem Saemundsson_horizon :
  exists v : R,
    Saemundsson [0.0] 10.0 101.0 (-20.0) 90.0 = Ok [Some v]
    /\ Rabs (v - 0.483) < 0.001.
Proof.
  destruct horizon_value as [E [Hl Hu]].
  eexists. split; [exact E | ].
  apply Rabs_def1; lra.
Qed.

(** C3 as stated fails: the correction at [h = 0.0] differs from 0.561
    degrees by more than 0.07, far outside a tolerance of 1e-3. *)
Lemma Saemundsson_horizon_not_0561 :
  exists v : R,
    Saemundsson [0.0] 10.0 101.0 (-20.0) 90.0 = Ok [Some v]
    /\ 0.07 < Rabs (v - 0.561).
Proof.
  destruct horizon_value as [E [Hl Hu]].
  eexists. split; [exact E | ].
  rewrite Rabs_left by lra. lra.
Qed.

(** C4 (amended).  For every temperature [T <> -273] and every pressure
    [P], the correction at the input 90.0 with the default clip bounds has
    a magnitude of at most 5e-10 degrees times the magnitude of the scaling
    factor [(P / 101.0) * (283.0 / (273.0 + T))]; it is approximately 0, at
    most 5e-9 degrees in magnitude, whenever that factor is at most 10 in
    magnitude. *)
Theorem Saemundsson_zenith (T P : R) :
  273.0 + T <> 0 ->
  exists v : R,
    Saemundsson [90.0] T P h_min_default h_max_default = Ok [Some v]
    /\ Rabs v <= 5e-10 * Rabs ((P / 101.0) * (283.0 / (273.0 + T)))
    /\ (Rabs ((P / 101.0) * (283.0 / (273.0 + T))) <= 10 ->
        Rabs v <= 5e-9).
Proof.
  intros HT. eexists. split; [apply zenith_value, HT | ].
  fold (scale T P). rewrite !Rabs_mult.
  pose proof arcmin_zenith as [Zl Zu].
  assert (Ha : Rabs (arcmin 90) <= 2.8e-8) by (apply Rabs_le; lra).
  assert (Hs : 0 <= Rabs (scale T P)) by apply Rabs_pos.
  assert (Hc : Rabs (1.0 / 60.0) = 1 / 60) by (rewrite Rabs_pos_eq; lra).
  rewrite Hc. pose proof (Rabs_pos (arcmin 90)).
  assert (Hb : Rabs (arcmin 90) * Rabs (scale T P) * (1 / 60)
               <= 5e-10 * Rabs (scale T P)) by nra.
  split; [exact Hb | intros Hk; lra].
Qed.

Lemma Saemundsson_zenith_witness :
  exists v : R,
    Saemundsson [90.0] 10 101 h_min_default h_max_default = Ok [Some v]
    /\ Rabs v <= 5e-10 * Rabs ((101 / 101.0) * (283.0 / (273.0 + 10)))
    /\ Rabs v <= 5e-9.
Proof.
  destruct (Saemundsson_zenith 10 101 ltac:(lra)) as [v [E [B K]]].
  exists v. split; [exact E | split; [exact B | ]].
  apply K. rewrite Rabs_pos_eq; lra.
Defined.

(** C4 as stated fails: at [T = -273] the call raises
    [ZeroDivisionError], and at the pressure [P = 101e15] the correction at
    90.0 is below -250000 degrees. *)
Lemma Saemundsson_zenith_not_small :
  Saemundsson [90.0] (-273.0) 101.0 h_min_default h_max_default
  = ZeroDivisionError
  /\ exists v : R,
       Saemundsson [90.0] 10.0 101e15 h_min_default h_max_default
       = Ok [Some v]
       /\ v <= -250000.
Proof.
  split; [apply Saemundsson_raises; lra | ].
  eexists. split; [apply zenith_value; lra | ].
  replace (scale 10.0 101e15) with 1e15 by (unfold scale; lra).
  pose proof arcmin_zenith. lra.
Qed.

(** ** Sign and monotonicity on [0, 90] *)

(** C5 (amended).  For a fixed temperature above -273 degrees Celsius, a
    fixed non-negative pressure and the default clip bounds, the
    correction is monotonically non-increasing in [h] over [0, 90], and it
    is non-negative for every [h] in [0, 89.9999]. *)
Theorem Saemundsson_nonincreasing (T P h1 h2 : R) :
  -273 < T -> 0 <= P ->
  0 <= h1 -> h1 <= h2 -> h2 <= 90 ->
  exists v1 v2 : R,
    Saemundsson [h1; h2] T P h_min_default h_max_default
    = Ok [Some v1; Some v2]
    /\ v2 <= v1
    /\ (h1 <= 89.9999 -> 0 <= v1).
Proof.
  intros HT HP H1 H12 H2.
  rewrite Saemundsson_default_value by (apply warm, HT). cbn [map].
  do 2 eexists. split; [reflexivity | ].
  unfold Saemundsson1, h_min_default, h_max_default.
  rewrite !clip_inside by lra.
  pose proof (scale_nonneg T P HT HP) as Hs.
  assert (Hk : 0 <= scale T P * (1.0 / 60.0))
    by (apply Rmult_le_pos; [exact Hs | lra]).
  rewrite !Rmult_assoc. split.
  - apply Rmult_le_compat_r; [exact Hk | ].
    apply arcmin_monotone; lra.
  - intros H9. apply Rmult_le_pos; [ | exact Hk].
    apply Rle_trans with (arcmin 89.9999); [apply arcmin_below_zenith | ].
    apply arcmin_monotone; lra.
Qed.

Lemma Saemundsson_nonincreasing_witness :
  exists v1 v2 : R,
    Saemundsson [0; 90] 10 101 h_min_default h_max_default
    = Ok [Some v1; Some v2]
    /\ v2 <= v1 /\ 0 <= v1.
Proof.
  destruct (Saemundsson_nonincreasing 10 101 0 90
              ltac:(lra) ltac:(lra) ltac:(lra) ltac:(lra) ltac:(lra))
    as [v1 [v2 [E [M N]]]].
  exists v1, v2. split; [exact E | split; [exact M | apply N; lra]].
Defined.

(** C5 as stated fails twice.  At [h = 90] with the default [T] and [P] the
    correction is negative; and with the negative pressure [P = -101] the
    correction at 0 is below the correction at 90. *)
Lemma Saemundsson_negative_at_zenith :
  (exists v : R,
     Saemundsson [90.0] T_default P_default h_min_default h_max_default
     = Ok [Some v]
     /\ v < 0)
  /\ (exists v0 v90 : R,
        Saemundsson [0.0; 90.0] 10.0 (-101.0) h_min_default h_max_default
        = Ok [Some v0; Some v90]
        /\ v0 < v90).
Proof.
  split.
  - eexists. split.
    + apply zenith_value. unfold T_default. lra.
    + unfold T_default, P_default. rewrite scale_reference.
      pose proof arcmin_zenith. lra.
  - rewrite Saemundsson_default_value by lra. cbn [map].
    do 2 eexists. split; [reflexivity | ].
    unfold Saemundsson1, h_min_default, h_max_default.
    rewrite !clip_inside by lra.
    replace (scale 10.0 (-101.0)) with (-1) by (unfold scale; lra).
    replace 0.0 with 0 by lra. replace 90.0 with 90 by lra.
    pose proof arcmin_horizon. pose proof arcmin_zenith. lra.
Qed.

(** ** Definedness on the default clip range *)




(** * Further properties of the code *)

(** ** Saturation of the clip *)

(** X1.  The clip saturates: with [h_min <= h_max], a call on an input at
    or below [h_min] gives what the call on [h_min] gives, and a call on an
    input at or above [h_max] gives what the call on [h_max] gives. *)
Theorem Saemundsson_saturates (h T P h_min h_max : R) :
  h_min <= h_max ->
  (h <= h_min ->
   Saemundsson [h] T P h_min h_max = Saemundsson [h_min] T P h_min h_max)
  /\ (h_max <= h ->
      Saemundsson [h] T P h_min h_max = Saemundsson [h_max] T P h_min h_max).
Proof.
  intros Hb. split; intros Hh; apply Saemundsson_same_clip; cbn [map].
  - rewrite (clip_below _ _ h Hb Hh).
    now rewrite (clip_below _ _ h_min Hb) by lra.
  - rewrite (clip_above _ _ h Hh).
    now rewrite (clip_above _ _ h_max) by lra.
Qed.

Lemma Saemundsson_saturates_witness :
  Saemundsson [-2.5] 10 101 (-1) 90 = Saemundsson [-1] 10 101 (-1) 90
  /\ Saemundsson [120] 10 101 (-1) 90 = Saemundsson [90] 10 101 (-1) 90.
Proof.
  split.
  - apply (proj1 (Saemundsson_saturates (-2.5) 10 101 (-1) 90 ltac:(lra))).
    lra.
  - apply (proj2 (Saemundsson_saturates 120 10 101 (-1) 90 ltac:(lra))).
    lra.
Defined.

(** X2.  Inverted clip bounds: when [h_max < h_min] every element is clipped
    to [h_max], so the call gives what it gives on an input of that many
    copies of [h_max]; when it does not raise, the result is the one
    element computed for [h_max], repeated. *)
Theorem Saemundsson_inverted_bounds (h : list R) (T P h_min h_max : R) :
  h_max < h_min ->
  Saemundsson h T P h_min h_max
  = Saemundsson (repeat h_max (length h)) T P h_min h_max
  /\ (273.0 + T <> 0 ->
      exists v : option R,
        Saemundsson [h_max] T P h_min h_max = Ok [v]
        /\ Saemundsson h T P h_min h_max = Ok (repeat v (length h))).
Proof.
  intros Hb. split.
  - apply Saemundsson_same_clip.
    induction h as [ | hi h IH]; [reflexivity | ].
    cbn [length repeat map]. rewrite IH.
    now rewrite !(clip_inverted h_min h_max) by exact Hb.
  - intros HT. eexists. rewrite !Saemundsson_ok by exact HT.
    split; [reflexivity | ]. f_equal.
    rewrite <- map_const. apply map_ext. intros hi.
    unfold Saemundsson_element.
    now rewrite !(clip_inverted h_min h_max) by exact Hb.
Qed.

Lemma Saemundsson_inverted_bounds_witness :
  exists v : option R,
    Saemundsson [-1] 10 101 90 (-1) = Ok [v]
    /\ Saemundsson [0; 45] 10 101 90 (-1) = Ok (repeat v (length [0; 45])).
Proof.
  apply (proj2 (Saemundsson_inverted_bounds [0; 45] 10 101 90 (-1)
                  ltac:(lra))).
  lra.
Defined.

(** ** Range of the correction under the default bounds *)

(** X3.  Whatever the input elevation, with the default clip bounds, a
    temperature above -273 and a non-negative pressure, the correction is a
    real number between -5e-10 and 0.647 degrees times the scaling factor
    [(P / 101.0) * (283.0 / (273.0 + T))]. *)
Theorem Saemundsson_default_range (h T P : R) :
  -273 < T -> 0 <= P ->
  exists v : R,
    Saemundsson [h] T P h_min_default h_max_default = Ok [Some v]
    /\ -5e-10 * ((P / 101.0) * (283.0 / (273.0 + T))) <= v
       <= 0.647 * ((P / 101.0) * (283.0 / (273.0 + T))).
Proof.
  intros HT HP.
  rewrite Saemundsson_default_value by (apply warm, HT). cbn [map].
  eexists. split; [reflexivity | ]. unfold Saemundsson1.
  pose proof (scale_nonneg T P HT HP) as Hs. fold (scale T P).
  pose proof (clip_bounds h_min_default h_max_default h) as Hb.
  set (hc := Numpy.clip h_min_default h_max_default h) in *.
  unfold h_min_default, h_max_default in Hb. specialize (Hb ltac:(lra)).
  pose proof (arcmin_monotone (-1) hc ltac:(lra) ltac:(lra) ltac:(lra)) as Hu.
  pose proof (arcmin_monotone hc 90 ltac:(lra) ltac:(lra) ltac:(lra)) as Hl.
  pose proof arcmin_lowest_clip. pose proof arcmin_zenith.
  split; nra.
Qed.

Lemma Saemundsson_default_range_witness :
  exists v : R,
    Saemundsson [1000] 10 101 h_min_default h_max_default = Ok [Some v]
    /\ -5e-10 * ((101 / 101.0) * (283.0 / (273.0 + 10))) <= v
       <= 0.647 * ((101 / 101.0) * (283.0 / (273.0 + 10))).
Proof.
  apply (Saemundsson_default_range 1000 10 101); lra.
Defined.

(** X4.  Colder and denser air refracts more: for an input of at most
    89.9999 degrees and the default clip bounds, lowering the temperature
    (above -273) or raising the non-negative pressure never lowers the
    correction. *)
Theorem Saemundsson_monotone_T_P (h T1 T2 P1 P2 : R) :
  h <= 89.9999 ->
  -273 < T1 -> T1 <= T2 -> 0 <= P1 -> P1 <= P2 ->
  exists v v' : R,
    Saemundsson [h] T2 P1 h_min_default h_max_default = Ok [Some v]
    /\ Saemundsson [h] T1 P2 h_min_default h_max_default = Ok [Some v']
    /\ v <= v'.
Proof.
  intros Hh HT1 HT HP1 HP.
  rewrite !Saemundsson_default_value by (apply warm; lra). cbn [map].
  do 2 eexists. split; [reflexivity | split; [reflexivity | ]].
  unfold Saemundsson1.
  assert (Hc : -1 <= Numpy.clip h_min_default h_max_default h <= 89.9999).
  { unfold h_min_default, h_max_default, Numpy.clip, Rmin, Rmax.
    repeat (destruct (Rle_dec _ _); try lra). }
  set (hc := Numpy.clip h_min_default h_max_default h) in *.
  assert (Ha : 0 <= arcmin hc).
  { apply Rle_trans with (arcmin 89.9999); [apply arcmin_below_zenith | ].
    apply arcmin_monotone; lra. }
  assert (Hs : scale T2 P1 <= scale T1 P2).
  { unfold scale. apply Rmult_le_compat.
    - apply Rmult_le_pos; [exact HP1 | apply Rlt_le, Rinv_0_lt_compat; lra].
    - apply Rlt_le, Rdiv_lt_0_compat; lra.
    - apply Rmult_le_compat_r; [apply Rlt_le, Rinv_0_lt_compat; lra | exact HP].
    - apply Rmult_le_compat_l; [lra | ].
      apply Rinv_le_contravar; lra. }
  apply Rmult_le_compat_r; [lra | ].
  apply Rmult_le_compat_l; assumption.
Qed.

Lemma Saemundsson_monotone_T_P_witness :
  exists v v' : R,
    Saemundsson [0] 10 70 h_min_default h_max_default = Ok [Some v]
    /\ Saemundsson [0] (-30) 101 h_min_default h_max_default = Ok [Some v']
    /\ v <= v'.
Proof.
  apply (Saemundsson_monotone_T_P 0 (-30) 10 70 101); lra.
Defined.

(** ** The grids and the curves of the plot script *)

(** X5.  A grid of at least two points from [start] up to [stop] has [num]
    elements, begins with [start], ends with exactly [stop], and is
    strictly increasing. *)
Theorem linspace_grid (start stop : R) (num : nat) :
  (2 <= num)%nat -> start < stop ->
  length (Numpy.linspace start stop num) = num
  /\ nth_error (Numpy.linspace start stop num) 0 = Some start
  /\ nth_error (Numpy.linspace start stop num) (num - 1) = Some stop
  /\ forall i j x y,
       (i < j)%nat ->
       nth_error (Numpy.linspace start stop num) i = Some x ->
       nth_error (Numpy.linspace start stop num) j = Some y ->
       x < y.
Proof.
  intros Hn Hs.
  assert (Hd : 0 < INR (num - 1)) by (apply lt_0_INR; lia).
  assert (Hstep : 0 < (stop - start) / INR (num - 1))
    by (apply Rdiv_lt_0_compat; lra).
  split; [apply linspace_length | split; [ | split]].
  - rewrite linspace_nth by lia. f_equal. simpl. lra.
  - rewrite linspace_nth by lia. f_equal. field. lra.
  - intros i j x y Hij Hx Hy.
    assert (Hj : (j < num)%nat).
    { rewrite <- (linspace_length start stop num).
      apply nth_error_Some. congruence. }
    rewrite linspace_nth in Hx, Hy by lia.
    injection Hx as <-. injection Hy as <-.
    apply Rplus_lt_compat_r, Rmult_lt_compat_r; [exact Hstep | ].
    now apply lt_INR.
Qed.

Lemma linspace_grid_witness :
  nth_error (Numpy.linspace 0 1 3) (3 - 1) = Some 1.
Proof.
  apply (linspace_grid 0 1 3); [lia | lra].
Defined.

(** X6.  None of the four atmospheric conditions of the script has
    [T = -273].  For every condition with [T <> -273] the two curves of
    the plot loop are returned and have the 926 elements of the elevation
    series; in the comparison call with [h_min = -20.0] no element is
    clipped, so the dotted curve is the bare formula along the series,
    every element a real number; and the dotted and the solid curve carry
    the same value wherever the elevation is at least -1. *)
Theorem curves_agree :
  Forall (fun c => 273.0 + cond_T c <> 0) atmos_cond
  /\ forall c : condition,
       273.0 + cond_T c <> 0 ->
       exists dotted solid : list (option R),
         dotted_curve c = Ok dotted
         /\ solid_curve c = Ok solid
         /\ length dotted = 926%nat
         /\ length solid = 926%nat
         /\ dotted
            = map (fun hi =>
                     Some
                       ((1.02 / tan (Numpy.deg2rad (hi + 10.3 / (hi + 5.11)))
                         + 0.0019279)
                        * ((cond_P c / 101.0) * (283.0 / (273.0 + cond_T c)))
                        * (1.0 / 60.0)))
                  sol_elev
         /\ forall i hi,
              nth_error sol_elev i = Some hi -> -1 <= hi ->
              nth_error dotted i = nth_error solid i.
Proof.
  split.
  - unfold atmos_cond. repeat constructor; cbn [cond_T]; lra.
  - intros c HT. unfold dotted_curve, solid_curve.
    rewrite Saemundsson_default_value by exact HT.
    rewrite Saemundsson_value; [ | exact HT | ].
    2:{ intros hi Hin. apply sol_elev_range in Hin.
        rewrite clip_inside by (unfold h_max_default; lra). lra. }
    do 2 eexists. split; [reflexivity | split; [reflexivity | ]].
    split; [rewrite length_map; apply linspace_length | ].
    split; [rewrite length_map; apply linspace_length | ].
    split.
    + apply map_ext_in. intros hi Hin. apply sol_elev_range in Hin.
      unfold Saemundsson1. rewrite clip_inside by (unfold h_max_default; lra).
      reflexivity.
    + intros i hi Hi Hh. rewrite !nth_error_map, Hi. cbn [option_map].
      do 2 f_equal.
      assert (Hin : In hi sol_elev) by (eapply nth_error_In; exact Hi).
      apply sol_elev_range in Hin.
      unfold Saemundsson1, h_min_default, h_max_default.
      now rewrite !clip_inside by lra.
Qed.

Lemma curves_agree_witness :
  exists dotted solid : list (option R),
    dotted_curve {| cond_T := 10; cond_P := 101; cond_col := "red" |}
    = Ok dotted
    /\ solid_curve {| cond_T := 10; cond_P := 101; cond_col := "red" |}
       = Ok solid
    /\ nth_error dotted 925 = nth_error solid 925.
Proof.
  destruct (proj2 curves_agree
              {| cond_T := 10; cond_P := 101; cond_col := "red" |})
    as [d [s [Ed [Es [_ [_ [_ F]]]]]]].
  - cbn [cond_T]. lra.
  - exists d, s. split; [exact Ed | split; [exact Es | ]].
    apply (F 925%nat 90); [ | lra].
    unfold sol_elev. rewrite linspace_nth by lia. f_equal.
    replace (926 - 1)%nat with 925%nat by reflexivity.
    rewrite (INR_IZR_INZ 925). simpl Z.of_nat. lra.
Defined.

(** ** Range and domain of the barometric formula *)

(** X7.  At and above sea level, as long as the lapse-rate temperature
    [T_0 - tau * z] is positive, the pressure is defined, positive and at
    most [p_0]; it equals [p_0] exactly at [z = 0]. *)
Theorem barometric_range (zi : R) :
  0 <= zi -> 0 < T_0 - tau * zi ->
  exists v : R,
    barometric [zi] = [Some v] /\ 0 < v <= p_0 /\ (v = p_0 <-> zi = 0).
Proof.
  intros Hz Hd. rewrite barometric_map. cbn [map].
  rewrite pressure_defined by exact Hd.
  eexists. split; [reflexivity | ].
  assert (HT : 0 < T_0) by (rewrite T_0_value; lra).
  set (b := (T_0 - tau * zi) / T_0).
  assert (Hb0 : 0 < b) by (apply Rdiv_lt_0_compat; assumption).
  assert (Hb1 : b <= 1).
  { apply Rmult_le_reg_r with T_0; [exact HT | ].
    unfold b, Rdiv. rewrite Rmult_assoc, Rinv_l, Rmult_1_r by lra.
    unfold tau. lra. }
  pose proof (Rpower_pos b (g / (R_d * tau))) as Hp.
  pose proof exponent_pos as He.
  assert (Hle : Rpower b (g / (R_d * tau)) <= 1).
  { rewrite <- (Rpower_base_1 (g / (R_d * tau))).
    apply Rle_Rpower_l; lra. }
  assert (H101 : p_0 = 101) by (unfold p_0; lra).
  split; [rewrite H101; lra | split].
  - intros E. destruct (Req_dec zi 0) as [Z | Z]; [exact Z | exfalso].
    assert (Hlt : b < 1).
    { apply Rmult_lt_reg_r with T_0; [exact HT | ].
      unfold b, Rdiv. rewrite Rmult_assoc, Rinv_l, Rmult_1_r by lra.
      unfold tau. lra. }
    assert (Rpower b (g / (R_d * tau)) < 1).
    { rewrite <- (Rpower_base_1 (g / (R_d * tau))).
      apply Rlt_Rpower_l; lra. }
    rewrite H101 in E. lra.
  - intros ->. unfold b.
    replace ((T_0 - tau * 0) / T_0) with 1 by (field; lra).
    rewrite Rpower_base_1. lra.
Qed.

Lemma barometric_range_witness :
  exists v : R,
    barometric [0] = [Some v] /\ 0 < v <= p_0 /\ (v = p_0 <-> 0 = 0).
Proof.
  apply (barometric_range 0); [lra | rewrite T_0_value; unfold tau; lra].
Defined.

Lemma not_integral y (n : Z) : IZR n < y < IZR (n + 1) -> frac_part y <> 0.
Proof.
  intros [Hl Hu] Hf. unfold frac_part in Hf.
  assert (E : y = IZR (Int_part y)) by lra.
  rewrite E in Hl, Hu. apply lt_IZR in Hl. apply lt_IZR in Hu. lia.
Qed.

(** X8.  Outside the domain: the exponent [g / (R_d * tau)] lies strictly
    between 5 and 6, so it is positive and not integral.  Hence where the
    lapse-rate temperature [T_0 - tau * z] is negative the power of the
    negative base has no real value ([nan]), and where it is exactly zero
    the pressure is 0. *)
Theorem barometric_outside_domain (zi : R) :
  5 < g / (R_d * tau) < 6
  /\ (T_0 - tau * zi < 0 -> barometric [zi] = [None])
  /\ (T_0 - tau * zi = 0 -> barometric [zi] = [Some 0]).
Proof.
  assert (HT : 0 < T_0) by (rewrite T_0_value; lra).
  assert (He : 5 < g / (R_d * tau) < 6).
  { unfold g, R_d, tau. split.
    - apply Rmult_lt_reg_r with (287.0 * 0.0065); [lra | ].
      unfold Rdiv. rewrite Rmult_assoc, Rinv_l, Rmult_1_r by lra. lra.
    - apply Rmult_lt_reg_r with (287.0 * 0.0065); [lra | ].
      unfold Rdiv. rewrite Rmult_assoc, Rinv_l, Rmult_1_r by lra. lra. }
  split; [exact He | split].
  - intros Hn. rewrite barometric_map. cbn [map]. unfold pressure.
    assert (Hb : (T_0 - tau * zi) / T_0 < 0).
    { unfold Rdiv. rewrite <- (Rmult_0_l (/ T_0)).
      apply Rmult_lt_compat_r; [now apply Rinv_0_lt_compat | exact Hn]. }
    unfold Numpy.power.
    destruct (Rlt_dec 0 _); [lra | ].
    destruct (Req_dec_T _ 0); [lra | ].
    destruct (Req_dec_T (frac_part _) 0) as [Hf | _]; [exfalso | reflexivity].
    revert Hf. apply (not_integral _ 5). exact He.
  - intros Hz. rewrite barometric_map. cbn [map]. unfold pressure.
    rewrite Hz. replace (0 / T_0) with 0 by (unfold Rdiv; ring).
    unfold Numpy.power.
    destruct (Rlt_dec 0 0); [lra | ].
    destruct (Req_dec_T 0 0); [ | lra].
    destruct (Rlt_dec 0 _); [ | lra].
    cbn [option_map]. do 2 f_equal. unfold p_0. ring.
Qed.

Lemma barometric_outside_domain_witness :
  barometric [50000] = [None].
Proof.
  apply (proj1 (proj2 (barometric_outside_domain 50000))).
  rewrite T_0_value. unfold tau. lra.
Defined.

(** ** The formula below the default clip range *)

(** X9.  Any clip bounds inside [-5, 90] guard the formula: for every
    input the clipped value has a denominator [h + 5.11] of at least 0.11,
    and the tangent argument lies strictly between 1.3 and 180 degrees, so
    its sine is positive; hence, for every [T <> -273], the element
    computed for the input is a real number. *)
Theorem clip_bounds_guard (h h_min h_max : R) :
  -5 <= h_min -> h_min <= h_max -> h_max <= 90 ->
  0.11 <= Numpy.clip h_min h_max h + 5.11
  /\ 1.3 < tan_arg (Numpy.clip h_min h_max h) < 180
  /\ 0 < sin (Numpy.deg2rad (tan_arg (Numpy.clip h_min h_max h)))
  /\ forall T P : R,
       273.0 + T <> 0 ->
       exists v : R, Saemundsson [h] T P h_min h_max = Ok [Some v].
Proof.
  intros Hl Hb Hu.
  pose proof (clip_bounds h_min h_max h Hb) as Hc.
  set (hc := Numpy.clip h_min h_max h) in *.
  pose proof (tan_arg_range_wide hc ltac:(lra)) as W.
  pose proof (deg2rad_range (tan_arg hc) ltac:(lra)) as D.
  split; [lra | split; [exact W | split]].
  - apply sin_gt_0; lra.
  - intros T P HT. eexists. rewrite Saemundsson_value; [reflexivity | exact HT | ].
    intros hi [<- | []]. fold hc. lra.
Qed.

Lemma clip_bounds_guard_witness :
  0.11 <= Numpy.clip (-5) 90 (-1000) + 5.11
  /\ 1.3 < tan_arg (Numpy.clip (-5) 90 (-1000)) < 180
  /\ 0 < sin (Numpy.deg2rad (tan_arg (Numpy.clip (-5) 90 (-1000))))
  /\ exists v : R, Saemundsson [-1000] 10 101 (-5) 90 = Ok [Some v].
Proof.
  destruct (clip_bounds_guard (-1000) (-5) 90
              ltac:(lra) ltac:(lra) ltac:(lra)) as [A [B [C D]]].
  split; [exact A | split; [exact B | split; [exact C | ]]].
  apply D. lra.
Defined.

(** X10.  With the lower bound [h_min = -20.0] of the comparison curves, a
    temperature above -273 and a positive pressure, the correction is not
    monotone over inputs in [-5, 90]: it is strictly increasing up to
    [h_peak = sqrt 10.3 - 5.11], about -1.9006 degrees, and strictly
    decreasing from there on. *)
Theorem Saemundsson_unimodal (T P h1 h2 : R) :
  -273 < T -> 0 < P ->
  -5 <= h1 -> h1 < h2 -> h2 <= 90 ->
  exists v1 v2 : R,
    Saemundsson [h1; h2] T P (-20.0) h_max_default = Ok [Some v1; Some v2]
    /\ (h2 <= h_peak -> v1 < v2)
    /\ (h_peak <= h1 -> v2 < v1).
Proof.
  intros HT HP H1 H12 H2.
  rewrite Saemundsson_value; [ | apply warm, HT | ].
  2:{ apply two_in_range; unfold h_max_default; lra. }
  cbn [map]. do 2 eexists. split; [reflexivity | ].
  unfold Saemundsson1, h_max_default.
  rewrite !clip_inside by lra.
  assert (Hs : 0 < scale T P).
  { unfold scale. apply Rmult_lt_0_compat.
    - apply Rdiv_lt_0_compat; lra.
    - apply Rdiv_lt_0_compat; lra. }
  assert (Hk : 0 < scale T P * (1.0 / 60.0))
    by (apply Rmult_lt_0_compat; [exact Hs | lra]).
  destruct sqrt_10_3 as [Sb Se].
  pose proof (tan_arg_diff h1 h2 ltac:(lra) ltac:(lra)) as D.
  set (dd := (h1 + 5.11) * (h2 + 5.11)) in *.
  assert (Hdd : 0 < dd) by (unfold dd; nra).
  assert (Q : 10.3 / dd * dd = 10.3) by (field; lra).
  rewrite !Rmult_assoc. split; intros Hp; unfold h_peak in Hp.
  - apply Rmult_lt_compat_r; [exact Hk | ].
    apply arcmin_strictly_antitone_in_arg; [lra | lra | ].
    assert (dd < 10.3) by (unfold dd; nra).
    assert (1 < 10.3 / dd) by nra.
    nra.
  - apply Rmult_lt_compat_r; [exact Hk | ].
    apply arcmin_strictly_antitone_in_arg; [lra | lra | ].
    assert (10.3 < dd) by (unfold dd; nra).
    assert (10.3 / dd < 1) by nra.
    nra.
Qed.

Lemma Saemundsson_unimodal_witness :
  (exists v1 v2 : R,
     Saemundsson [-2.5; -2] 10 101 (-20.0) h_max_default
     = Ok [Some v1; Some v2]
     /\ v1 < v2)
  /\ (exists v1 v2 : R,
        Saemundsson [-1; 90] 10 101 (-20.0) h_max_default
        = Ok [Some v1; Some v2]
        /\ v2 < v1).
Proof.
  destruct sqrt_10_3 as [Sb _].
  split.
  - destruct (Saemundsson_unimodal 10 101 (-2.5) (-2)
                ltac:(lra) ltac:(lra) ltac:(lra) ltac:(lra) ltac:(lra))
      as [v1 [v2 [E [U _]]]].
    exists v1, v2. split; [exact E | apply U; unfold h_peak; lra].
  - destruct (Saemundsson_unimodal 10 101 (-1) 90
                ltac:(lra) ltac:(lra) ltac:(lra) ltac:(lra) ltac:(lra))
      as [v1 [v2 [E [_ Dn]]]].
    exists v1, v2. split; [exact E | apply Dn; unfold h_peak; lra].
Defined.
